(** * Verification of [app/processor.py]

    The processor module of the backtest engine has two functions:
    [validate_input_message], which guards a job message with the schema
    checker, and [run_backtest_job], which merges the message with a
    placeholder result.  Both talk to the module-level [logger].

    The embedding keeps the shape of the Python code: messages are
    string-keyed dictionaries of Python values, the logger is a list of
    records threaded through every call, and [raise] is an outcome of the
    computation next to [return]. *)

From Stdlib Require Import PrimFloat ZArith.
From stdpp Require Import gmap strings list fin_maps.

(* The metrics are written as decimal literals in the source; as in Python
   each one denotes the closest binary64 number. *)
Set Warnings "-inexact-float,-register-all".

Module Processor.

(** ** Python values *)

(** What a [dict[str, Any]] can hold.  [VFloat] is a binary64 number, as a
    Python [float]; [VDict] is a string-keyed dictionary.  Two dictionaries
    are equal when they have the same keys with the same values, whatever
    the insertion order. *)
Inductive value : Type :=
  | VNone
  | VBool (b : bool)
  | VInt (z : Z)
  | VFloat (f : float)
  | VStr (s : string)
  | VList (l : list value)
  | VDict (d : gmap string value).

(** [d.get(key, default)] *)
Definition dict_get (d : gmap string value) (key : string) (dflt : value) : value :=
  match d !! key with
  | Some v => v
  | None => dflt
  end.

(** A dictionary display [{k1: v1, ..., kn: vn}]: the items are stored from
    left to right, a later item replacing an earlier one with the same key. *)
Definition dict_display (items : list (string * value)) : gmap string value :=
  foldl (λ d kv, <[kv.1 := kv.2]> d) ∅ items.

(** [{**a, **b}]: the items of [a], then those of [b], which win on a
    common key.  (The union of [gmap] prefers its left operand.) *)
Definition dict_unpack (a b : gmap string value) : gmap string value :=
  b ∪ a.

(** ** The logger *)

Inductive level : Type := DEBUG | INFO | ERROR.

(** One call of a logger method: the level of the method, the format string
    and the arguments, kept apart as [logging.LogRecord] keeps them. *)
Record log_record : Type := LogRecord {
  levelname : level;
  msg : string;
  args : list value
}.

(** ** Exceptions and computations *)

Inductive exn : Type :=
  | ValueError (text : string).

Inductive outcome (A : Type) : Type :=
  | Returned (a : A)
  | Raised (e : exn).
Arguments Returned {A} a.
Arguments Raised {A} e.

(** A computation starts from the records logged so far and ends with an
    outcome and the records logged by then.  Records logged before an
    exception stay logged. *)
Definition py (A : Type) : Type :=
  list log_record → outcome A * list log_record.

Definition py_return {A} (a : A) : py A :=
  λ log, (Returned a, log).

Definition py_bind {A B} (c : py A) (k : A → py B) : py B :=
  λ log,
    match c log with
    | (Returned a, log') => k a log'
    | (Raised e, log') => (Raised e, log')
    end.

Definition py_raise {A} (e : exn) : py A :=
  λ log, (Raised e, log).

#[global] Instance py_mret : MRet py := @py_return.
#[global] Instance py_mbind : MBind py := λ A B k c, py_bind c k.

Definition logger_log (lv : level) (fmt : string) (a : list value) : py unit :=
  λ log, (Returned tt, log ++ [LogRecord lv fmt a]).

Definition logger_debug : string → list value → py unit := logger_log DEBUG.
Definition logger_info : string → list value → py unit := logger_log INFO.
Definition logger_error : string → list value → py unit := logger_log ERROR.

(** The value a computation returns or the exception it raises, and the
    records it leaves. *)
Definition result_of {A} (c : py A) (log : list log_record) : outcome A :=
  (c log).1.

Definition log_of {A} (c : py A) (log : list log_record) : list log_record :=
  (c log).2.

(** ** [processor.py] *)

Section validator.

(** [app.utils.validate_data.validate_message_schema], the schema checker
    the module imports: a function from messages to booleans, which neither
    raises nor changes the message it inspects. *)
Variable validate_message_schema : gmap string value → bool.

Definition validate_input_message (message : gmap string value)
  : py (gmap string value) :=
  logger_debug "🔍 Validating message schema..." [] ;;
  if negb (validate_message_schema message) then
    logger_error "❌ Invalid message schema: %s" [VDict message] ;;
    py_raise (ValueError "Invalid message format")
  else
    mret message.

End validator.

(** The [metrics] display of the placeholder result. *)
Definition metrics : gmap string value :=
  dict_display [
    ("return_pct", VFloat 12.4);
    ("sharpe_ratio", VFloat 1.7);
    ("max_drawdown", VFloat (-4.8))
  ].

Definition run_backtest_job (message : gmap string value)
  : py (gmap string value) :=
  let job_id := dict_get message "job_id" (VStr "unknown") in
  let strategy := dict_get message "strategy" (VStr "unspecified") in
  let symbol := dict_get message "symbol" (VStr "UNKNOWN") in
  logger_info "🧪 Running backtest job %s for %s using strategy %s"
    [job_id; symbol; strategy] ;;
  let result := dict_display [
    ("job_id", job_id);
    ("symbol", symbol);
    ("strategy", strategy);
    ("status", VStr "completed");
    ("metrics", VDict metrics)
  ] in
  logger_debug "✅ Backtest job %s result: %s" [job_id; VDict result] ;;
  mret (dict_unpack message result).

(** The [result] display of [run_backtest_job], as a function of the
    message: what the local variable holds when the function returns. *)
Definition job_result (message : gmap string value) : gmap string value :=
  dict_display [
    ("job_id", dict_get message "job_id" (VStr "unknown"));
    ("symbol", dict_get message "symbol" (VStr "UNKNOWN"));
    ("strategy", dict_get message "strategy" (VStr "unspecified"));
    ("status", VStr "completed");
    ("metrics", VDict metrics)
  ].

(** The records the two functions pass to the logger. *)
Definition validating_record : log_record :=
  LogRecord DEBUG "🔍 Validating message schema..." [].

Definition invalid_record (message : gmap string value) : log_record :=
  LogRecord ERROR "❌ Invalid message schema: %s" [VDict message].

Definition running_record (message : gmap string value) : log_record :=
  LogRecord INFO "🧪 Running backtest job %s for %s using strategy %s"
    [dict_get message "job_id" (VStr "unknown");
     dict_get message "symbol" (VStr "UNKNOWN");
     dict_get message "strategy" (VStr "unspecified")].

Definition finished_record (message : gmap string value) : log_record :=
  LogRecord DEBUG "✅ Backtest job %s result: %s"
    [dict_get message "job_id" (VStr "unknown"); VDict (job_result message)].

(** ** Concrete inputs *)

(** Modelled from the spec: [app.utils.validate_data] lies outside
    [processor.py], so [validate_message_schema] is a parameter of
    everything proved about [validate_input_message].  The data model
    expects a job message "to contain at minimum job_id, strategy, and
    symbol"; this checker accepts exactly those messages and serves to run
    the validator on concrete messages. *)
Definition has_required_fields (message : gmap string value) : bool :=
  match message !! "job_id", message !! "strategy", message !! "symbol" with
  | Some _, Some _, Some _ => true
  | _, _, _ => false
  end.

(** The job message [{"job_id": "j1", "strategy": "sma", "symbol": "AAPL"}]. *)
Definition sma_job : gmap string value :=
  dict_display [
    ("job_id", VStr "j1");
    ("strategy", VStr "sma");
    ("symbol", VStr "AAPL")
  ].

(** A message that already has the two keys the job runner adds:
    [{"job_id": "j2", "status": "pending", "metrics": None}]. *)
Definition pending_job : gmap string value :=
  dict_display [
    ("job_id", VStr "j2");
    ("status", VStr "pending");
    ("metrics", VNone)
  ].

(** ** Theorems *)

(** *** Dictionaries *)

Lemma dict_get_Some (d : gmap string value) key dflt v :
  d !! key = Some v → dict_get d key dflt = v.
Proof. intros H. unfold dict_get. by rewrite H. Qed.

Lemma dict_get_None (d : gmap string value) key dflt :
  d !! key = None → dict_get d key dflt = dflt.
Proof. intros H. unfold dict_get. by rewrite H. Qed.

Lemma dict_get_default (d : gmap string value) key dflt :
  dict_get d key dflt = default dflt (d !! key).
Proof. unfold dict_get. by destruct (d !! key). Qed.

Lemma dict_unpack_lookup_r (a b : gmap string value) key v :
  b !! key = Some v → dict_unpack a b !! key = Some v.
Proof. intros H. unfold dict_unpack. by apply lookup_union_Some_l. Qed.

Lemma dict_unpack_lookup_l (a b : gmap string value) key :
  b !! key = None → dict_unpack a b !! key = a !! key.
Proof. intros H. unfold dict_unpack. by apply lookup_union_r. Qed.

Lemma dict_unpack_dom (a b : gmap string value) :
  dom (dict_unpack a b) = dom a ∪ dom b.
Proof. unfold dict_unpack. rewrite dom_union_L. apply (comm_L _). Qed.

(** *** The placeholder result *)

Lemma job_result_job_id message :
  job_result message !! "job_id"
  = Some (dict_get message "job_id" (VStr "unknown")).
Proof. unfold job_result, dict_display. simpl. by simplify_map_eq. Qed.

Lemma job_result_symbol message :
  job_result message !! "symbol"
  = Some (dict_get message "symbol" (VStr "UNKNOWN")).
Proof. unfold job_result, dict_display. simpl. by simplify_map_eq. Qed.

Lemma job_result_strategy message :
  job_result message !! "strategy"
  = Some (dict_get message "strategy" (VStr "unspecified")).
Proof. unfold job_result, dict_display. simpl. by simplify_map_eq. Qed.

Lemma job_result_status message :
  job_result message !! "status" = Some (VStr "completed").
Proof. unfold job_result, dict_display. simpl. by simplify_map_eq. Qed.

Lemma job_result_metrics message :
  job_result message !! "metrics" = Some (VDict metrics).
Proof. unfold job_result, dict_display. simpl. by simplify_map_eq. Qed.

Lemma job_result_other message key :
  key ≠ "job_id" → key ≠ "symbol" → key ≠ "strategy" →
  key ≠ "status" → key ≠ "metrics" →
  job_result message !! key = None.
Proof.
  intros ? ? ? ? ?. unfold job_result, dict_display. simpl.
  by rewrite !lookup_insert_ne, lookup_empty.
Qed.

Lemma job_result_dom message :
  dom (job_result message)
  = {["job_id"; "symbol"; "strategy"; "status"; "metrics"]}.
Proof.
  unfold job_result, dict_display. simpl.
  rewrite !dom_insert_L, dom_empty_L. apply set_eq. intros key.
  rewrite !elem_of_union, !elem_of_singleton, elem_of_empty. tauto.
Qed.

Lemma metrics_dom :
  dom metrics = {["return_pct"; "sharpe_ratio"; "max_drawdown"]}.
Proof.
  unfold metrics, dict_display. simpl.
  rewrite !dom_insert_L, dom_empty_L. apply set_eq. intros key.
  rewrite !elem_of_union, !elem_of_singleton, elem_of_empty. tauto.
Qed.

(** *** The job runner, run *)

Lemma run_backtest_job_run message log :
  run_backtest_job message log
  = (Returned (dict_unpack message (job_result message)),
     log ++ [running_record message; finished_record message]).
Proof.
  unfold run_backtest_job, mbind, py_mbind, py_bind, logger_info, logger_debug,
    logger_log, mret, py_mret, py_return. simpl.
  by rewrite <- app_assoc.
Qed.

Lemma run_backtest_job_result message log :
  result_of (run_backtest_job message) log
  = Returned (dict_unpack message (job_result message)).
Proof. unfold result_of. by rewrite run_backtest_job_run. Qed.

Lemma run_backtest_job_log message log :
  log_of (run_backtest_job message) log
  = log ++ [running_record message; finished_record message].
Proof. unfold log_of. by rewrite run_backtest_job_run. Qed.

(** *** The validator, run *)

Section validator_facts.

Variable validate_message_schema : gmap string value → bool.

Lemma validate_input_message_valid message log :
  validate_message_schema message = true →
  validate_input_message validate_message_schema message log
  = (Returned message, log ++ [validating_record]).
Proof.
  intros Hok. unfold validate_input_message. rewrite Hok. reflexivity.
Qed.

Lemma validate_input_message_invalid message log :
  validate_message_schema message = false →
  validate_input_message validate_message_schema message log
  = (Raised (ValueError "Invalid message format"),
     log ++ [validating_record; invalid_record message]).
Proof.
  intros Hko. unfold validate_input_message. rewrite Hko.
  unfold mbind, py_mbind, py_bind, logger_debug, logger_error, logger_log,
    py_raise. simpl.
  by rewrite <- app_assoc.
Qed.

(** C1: a message that passes schema validation is returned by
    [validate_input_message] exactly as it came in; the only trace of the
    call is the debug record of the logger. *)
Theorem validate_input_message_returns_input
    (message : gmap string value) (log : list log_record) :
  validate_message_schema message = true →
  result_of (validate_input_message validate_message_schema message) log
  = Returned message
  ∧ log_of (validate_input_message validate_message_schema message) log
    = log ++ [validating_record].
Proof.
  intros Hok. unfold result_of, log_of.
  by rewrite validate_input_message_valid.
Qed.

(** C2: on a message that fails schema validation [validate_input_message]
    raises the module's one error, [ValueError("Invalid message format")]
    (the error kind the specification calls InvalidFormat): nothing is
    returned, and the call ends with the error record of the logger.
    Conversely, on a message that passes validation no error is raised. *)
Theorem validate_input_message_raises_iff_invalid
    (message : gmap string value) (log : list log_record) :
  (validate_message_schema message = false →
     result_of (validate_input_message validate_message_schema message) log
     = Raised (ValueError "Invalid message format")
     ∧ (∀ r, result_of (validate_input_message validate_message_schema message) log
             ≠ Returned r)
     ∧ log_of (validate_input_message validate_message_schema message) log
       = log ++ [validating_record; invalid_record message])
  ∧ (validate_message_schema message = true →
     ∀ e, result_of (validate_input_message validate_message_schema message) log
          ≠ Raised e).
Proof.
  split.
  - intros Hko. unfold result_of, log_of.
    rewrite validate_input_message_invalid by done. simpl.
    split_and!; [done | intros r; discriminate | done].
  - intros Hok e. unfold result_of.
    rewrite validate_input_message_valid by done. simpl. discriminate.
Qed.

(** C7, as the code has it: the error raised on a rejected message is the
    same [ValueError("Invalid message format")] for every message, so it
    does not hold the payload; the rejected message is the argument of the
    error record handed to the logger just before the [raise]. *)
Theorem validate_input_message_logs_payload
    (message : gmap string value) (log : list log_record) :
  validate_message_schema message = false →
  result_of (validate_input_message validate_message_schema message) log
  = Raised (ValueError "Invalid message format")
  ∧ last (log_of (validate_input_message validate_message_schema message) log)
    = Some (LogRecord ERROR "❌ Invalid message schema: %s" [VDict message]).
Proof.
  intros Hko. unfold result_of, log_of.
  rewrite validate_input_message_invalid by done. simpl. split; [done |].
  apply last_Some. by exists (log ++ [validating_record]); rewrite <- app_assoc.
Qed.

End validator_facts.

Lemma validate_input_message_returns_input_witness :
  has_required_fields sma_job = true
  ∧ result_of (validate_input_message has_required_fields sma_job) []
    = Returned sma_job
  ∧ log_of (validate_input_message has_required_fields sma_job) []
    = [validating_record].
Proof.
  split; [reflexivity |].
  apply (validate_input_message_returns_input has_required_fields sma_job []).
  reflexivity.
Defined.

Lemma validate_input_message_raises_iff_invalid_witness :
  (has_required_fields ∅ = false
   ∧ result_of (validate_input_message has_required_fields ∅) []
     = Raised (ValueError "Invalid message format"))
  ∧ (has_required_fields sma_job = true
     ∧ ∀ e, result_of (validate_input_message has_required_fields sma_job) []
            ≠ Raised e).
Proof.
  split.
  - split; [reflexivity |].
    apply (validate_input_message_raises_iff_invalid has_required_fields ∅ []).
    reflexivity.
  - split; [reflexivity |].
    apply (validate_input_message_raises_iff_invalid has_required_fields sma_job []).
    reflexivity.
Defined.

Lemma validate_input_message_logs_payload_witness :
  has_required_fields ∅ = false
  ∧ result_of (validate_input_message has_required_fields ∅) []
    = Raised (ValueError "Invalid message format")
  ∧ last (log_of (validate_input_message has_required_fields ∅) [])
    = Some (LogRecord ERROR "❌ Invalid message schema: %s" [VDict ∅]).
Proof.
  split; [reflexivity |].
  apply (validate_input_message_logs_payload has_required_fields ∅ []).
  reflexivity.
Defined.

(** C7, as the specification has it, fails: were the rejected message
    recoverable from the error, some function would map the error raised
    on [{}] to [{}] and the error raised on [{"job_id": "j1"}] to that
    message; both calls raise the same error. *)
Lemma validate_input_message_error_drops_payload :
  ¬ ∃ recover : exn → gmap string value,
      ∀ message log,
        has_required_fields message = false →
        ∃ e, result_of (validate_input_message has_required_fields message) log
             = Raised e
             ∧ recover e = message.
Proof.
  intros [recover Hrec].
  destruct (Hrec ∅ []) as (e1 & He1 & Hr1); [reflexivity |].
  destruct (Hrec {["job_id" := VStr "j1"]} []) as (e2 & He2 & Hr2);
    [reflexivity |].
  unfold result_of in He1, He2.
  rewrite validate_input_message_invalid in He1 by reflexivity.
  rewrite validate_input_message_invalid in He2 by reflexivity.
  simpl in He1, He2.
  assert (e1 = e2) as Heq by congruence.
  rewrite Heq, Hr2 in Hr1.
  apply (f_equal (λ d : gmap string value, d !! "job_id")) in Hr1.
  rewrite lookup_singleton_eq, lookup_empty in Hr1. discriminate.
Qed.

(** *** The job runner *)

(** C3: the mapping [run_backtest_job] returns has every key of the input
    message and the keys "status" and "metrics"; where the input has one of
    these two keys itself, the value of the job runner replaces the
    input's. *)
Theorem run_backtest_job_keys
    (message : gmap string value) (log : list log_record) :
  ∃ r, result_of (run_backtest_job message) log = Returned r
       ∧ dom message ∪ {["status"; "metrics"]} ⊆ dom r
       ∧ (∀ v, message !! "status" = Some v →
               r !! "status" = Some (VStr "completed"))
       ∧ (∀ v, message !! "metrics" = Some v →
               r !! "metrics" = Some (VDict metrics)).
Proof.
  eexists. split; [apply run_backtest_job_result |]. split_and!.
  - rewrite dict_unpack_dom, job_result_dom. intros key.
    rewrite !elem_of_union, !elem_of_singleton. tauto.
  - intros _ _. apply dict_unpack_lookup_r, job_result_status.
  - intros _ _. apply dict_unpack_lookup_r, job_result_metrics.
Qed.

(** C4: on [{"job_id": "j1", "strategy": "sma", "symbol": "AAPL"}] the job
    runner returns that message extended with the status "completed" and
    the three placeholder metrics. *)
Theorem run_backtest_job_sma (log : list log_record) :
  result_of (run_backtest_job sma_job) log
  = Returned (dict_display [
      ("job_id", VStr "j1");
      ("strategy", VStr "sma");
      ("symbol", VStr "AAPL");
      ("status", VStr "completed");
      ("metrics", VDict (dict_display [
         ("return_pct", VFloat 12.4);
         ("sharpe_ratio", VFloat 1.7);
         ("max_drawdown", VFloat (-4.8))
       ]))
    ]).
Proof. rewrite run_backtest_job_result. reflexivity. Qed.

(** C5: the job runner reads "job_id", "strategy" and "symbol" from the
    message with the defaults "unknown", "unspecified" and "UNKNOWN": the
    result has under each of the three keys the value of the message when
    the message has the key, and the default when it has not.  A missing
    field is not an error: the job runner returns. *)
Theorem run_backtest_job_defaults
    (message : gmap string value) (log : list log_record) :
  ∃ r, result_of (run_backtest_job message) log = Returned r
       ∧ r !! "job_id"
         = Some (default (VStr "unknown") (message !! "job_id"))
       ∧ r !! "strategy"
         = Some (default (VStr "unspecified") (message !! "strategy"))
       ∧ r !! "symbol"
         = Some (default (VStr "UNKNOWN") (message !! "symbol"))
       ∧ (message !! "job_id" = None →
          r !! "job_id" = Some (VStr "unknown"))
       ∧ (message !! "strategy" = None →
          r !! "strategy" = Some (VStr "unspecified"))
       ∧ (message !! "symbol" = None →
          r !! "symbol" = Some (VStr "UNKNOWN")).
Proof.
  eexists. split; [apply run_backtest_job_result |]. split_and!.
  - apply dict_unpack_lookup_r.
    by rewrite job_result_job_id, dict_get_default.
  - apply dict_unpack_lookup_r.
    by rewrite job_result_strategy, dict_get_default.
  - apply dict_unpack_lookup_r.
    by rewrite job_result_symbol, dict_get_default.
  - intros Hmiss. apply dict_unpack_lookup_r.
    by rewrite job_result_job_id, dict_get_None.
  - intros Hmiss. apply dict_unpack_lookup_r.
    by rewrite job_result_strategy, dict_get_None.
  - intros Hmiss. apply dict_unpack_lookup_r.
    by rewrite job_result_symbol, dict_get_None.
Qed.

(** C6: whatever the message, the result has the status "completed" and
    the metrics [{"return_pct": 12.4, "sharpe_ratio": 1.7,
    "max_drawdown": -4.8}]. *)
Theorem run_backtest_job_constant_outputs
    (message : gmap string value) (log : list log_record) :
  ∃ r, result_of (run_backtest_job message) log = Returned r
       ∧ r !! "status" = Some (VStr "completed")
       ∧ r !! "metrics" = Some (VDict metrics)
       ∧ metrics !! "return_pct" = Some (VFloat 12.4)
       ∧ metrics !! "sharpe_ratio" = Some (VFloat 1.7)
       ∧ metrics !! "max_drawdown" = Some (VFloat (-4.8))
       ∧ dom metrics = {["return_pct"; "sharpe_ratio"; "max_drawdown"]}.
Proof.
  eexists. split; [apply run_backtest_job_result |]. split_and!.
  - apply dict_unpack_lookup_r, job_result_status.
  - apply dict_unpack_lookup_r, job_result_metrics.
  - reflexivity.
  - reflexivity.
  - reflexivity.
  - apply metrics_dom.
Qed.

(** C8: two runs of the job runner on equal messages return equal
    mappings, whatever the logger holds at the start of each run, and hand
    the same records to the logger. *)
Theorem run_backtest_job_deterministic
    (message1 message2 : gmap string value) (log1 log2 : list log_record) :
  message1 = message2 →
  result_of (run_backtest_job message1) log1
  = result_of (run_backtest_job message2) log2
  ∧ ∃ records,
      log_of (run_backtest_job message1) log1 = log1 ++ records
      ∧ log_of (run_backtest_job message2) log2 = log2 ++ records.
Proof.
  intros ->. split.
  - by rewrite !run_backtest_job_result.
  - eexists. by rewrite !run_backtest_job_log.
Qed.

(** C9: the job runner returns a mapping on every dictionary and never
    raises, the empty dictionary included. *)
Theorem run_backtest_job_total
    (message : gmap string value) (log : list log_record) :
  (∃ r log', run_backtest_job message log = (Returned r, log'))
  ∧ (∀ e, result_of (run_backtest_job message) log ≠ Raised e)
  ∧ ∃ r0, result_of (run_backtest_job ∅) log = Returned r0.
Proof.
  split_and!.
  - do 2 eexists. apply run_backtest_job_run.
  - intros e. by rewrite run_backtest_job_result.
  - eexists. apply run_backtest_job_result.
Qed.

(** C10: every key of the input other than "status" and "metrics" has in
    the result the value it has in the input; so have "job_id", "strategy"
    and "symbol" when the input has them. *)
Theorem run_backtest_job_preserves_input
    (message : gmap string value) (log : list log_record) :
  ∃ r, result_of (run_backtest_job message) log = Returned r
       ∧ ∀ key, is_Some (message !! key) →
                key ≠ "status" → key ≠ "metrics" →
                r !! key = message !! key.
Proof.
  eexists. split; [apply run_backtest_job_result |].
  intros key [v Hv] Hstatus Hmetrics. rewrite Hv.
  destruct (decide (key = "job_id")) as [-> | ?].
  { apply dict_unpack_lookup_r.
    by rewrite job_result_job_id, (dict_get_Some _ _ _ v). }
  destruct (decide (key = "symbol")) as [-> | ?].
  { apply dict_unpack_lookup_r.
    by rewrite job_result_symbol, (dict_get_Some _ _ _ v). }
  destruct (decide (key = "strategy")) as [-> | ?].
  { apply dict_unpack_lookup_r.
    by rewrite job_result_strategy, (dict_get_Some _ _ _ v). }
  rewrite <- Hv. by apply dict_unpack_lookup_l, job_result_other.
Qed.

Lemma run_backtest_job_keys_witness :
  pending_job !! "status" = Some (VStr "pending")
  ∧ pending_job !! "metrics" = Some VNone
  ∧ ∃ r, result_of (run_backtest_job pending_job) [] = Returned r
         ∧ r !! "status" = Some (VStr "completed")
         ∧ r !! "metrics" = Some (VDict metrics).
Proof.
  split; [reflexivity |]. split; [reflexivity |].
  destruct (run_backtest_job_keys pending_job []) as (r & Hr & _ & Hs & Hm).
  exists r. split; [exact Hr |]. split.
  - apply (Hs (VStr "pending")). reflexivity.
  - apply (Hm VNone). reflexivity.
Defined.

Lemma run_backtest_job_defaults_witness :
  ((∅ : gmap string value) !! "job_id" = None
   ∧ (∅ : gmap string value) !! "strategy" = None
   ∧ (∅ : gmap string value) !! "symbol" = None
   ∧ ∃ r, result_of (run_backtest_job ∅) [] = Returned r
          ∧ r !! "job_id" = Some (VStr "unknown")
          ∧ r !! "strategy" = Some (VStr "unspecified")
          ∧ r !! "symbol" = Some (VStr "UNKNOWN"))
  ∧ ∃ r, result_of (run_backtest_job {["strategy" := VStr "sma"]}) []
         = Returned r
         ∧ r !! "job_id" = Some (VStr "unknown")
         ∧ r !! "strategy" = Some (VStr "sma")
         ∧ r !! "symbol" = Some (VStr "UNKNOWN").
Proof.
  split.
  - split; [reflexivity |]. split; [reflexivity |]. split; [reflexivity |].
    destruct (run_backtest_job_defaults ∅ [])
      as (r & Hr & _ & _ & _ & Hj & Hst & Hsy).
    exists r. split; [exact Hr |]. split; [| split].
    + apply Hj. reflexivity.
    + apply Hst. reflexivity.
    + apply Hsy. reflexivity.
  - destruct (run_backtest_job_defaults {["strategy" := VStr "sma"]} [])
      as (r & Hr & Hj & Hst & Hsy & _).
    exists r. split; [exact Hr |]. split; [| split].
    + rewrite Hj. reflexivity.
    + rewrite Hst. reflexivity.
    + rewrite Hsy. reflexivity.
Defined.

Lemma run_backtest_job_deterministic_witness :
  sma_job = sma_job
  ∧ result_of (run_backtest_job sma_job) []
    = result_of (run_backtest_job sma_job) [validating_record].
Proof.
  split; [reflexivity |].
  apply (run_backtest_job_deterministic sma_job sma_job [] [validating_record]).
  reflexivity.
Defined.

Lemma run_backtest_job_preserves_input_witness :
  is_Some (sma_job !! "job_id")
  ∧ ∃ r, result_of (run_backtest_job sma_job) [] = Returned r
         ∧ r !! "job_id" = Some (VStr "j1").
Proof.
  split; [by eexists |].
  destruct (run_backtest_job_preserves_input sma_job []) as (r & Hr & Hkeep).
  exists r. split; [exact Hr |].
  rewrite (Hkeep "job_id"); [reflexivity | by eexists | discriminate | discriminate].
Defined.

(** ** Further properties of the job runner *)

(** The merge [{**message, **result}], one key at a time. *)
Lemma job_result_agree message1 message2 :
  message1 !! "job_id" = message2 !! "job_id" →
  message1 !! "symbol" = message2 !! "symbol" →
  message1 !! "strategy" = message2 !! "strategy" →
  job_result message1 = job_result message2.
Proof.
  intros Hj Hsy Hst. unfold job_result, dict_get.
  by rewrite Hj, Hsy, Hst.
Qed.

Lemma merged_as_inserts message :
  dict_unpack message (job_result message)
  = <["metrics" := VDict metrics]>
      (<["status" := VStr "completed"]>
        (<["strategy" := dict_get message "strategy" (VStr "unspecified")]>
          (<["symbol" := dict_get message "symbol" (VStr "UNKNOWN")]>
            (<["job_id" := dict_get message "job_id" (VStr "unknown")]>
              message)))).
Proof.
  unfold dict_unpack, job_result, dict_display. simpl.
  by rewrite <- !insert_union_l, (left_id_L ∅ (∪)).
Qed.

Lemma insert_dict_get (message : gmap string value) key dflt :
  is_Some (message !! key) →
  <[key := dict_get message key dflt]> message = message.
Proof.
  intros [v Hv]. rewrite (dict_get_Some _ _ _ v) by done. by apply insert_id.
Qed.

Lemma job_result_included message :
  job_result message ⊆ dict_unpack message (job_result message).
Proof. unfold dict_unpack. apply map_union_subseteq_l. Qed.

Lemma job_result_lookup_inv message key v :
  job_result message !! key = Some v →
  key ∈ ({["job_id"; "symbol"; "strategy"; "status"; "metrics"]} : gset string).
Proof.
  intros Hv. rewrite <- (job_result_dom message).
  apply elem_of_dom. by exists v.
Qed.

(** Running the job on a mapping the job runner returned changes nothing:
    the placeholder fields it would write are already there. *)
Lemma job_result_fixed message :
  job_result (dict_unpack message (job_result message)) = job_result message.
Proof.
  set (r := dict_unpack message (job_result message)).
  unfold job_result.
  rewrite (dict_get_Some r "job_id" _
             (dict_get message "job_id" (VStr "unknown")))
    by apply dict_unpack_lookup_r, job_result_job_id.
  rewrite (dict_get_Some r "symbol" _
             (dict_get message "symbol" (VStr "UNKNOWN")))
    by apply dict_unpack_lookup_r, job_result_symbol.
  rewrite (dict_get_Some r "strategy" _
             (dict_get message "strategy" (VStr "unspecified")))
    by apply dict_unpack_lookup_r, job_result_strategy.
  reflexivity.
Qed.

(** X1: the keys of the returned mapping are exactly the keys of the
    message together with "job_id", "symbol", "strategy", "status" and
    "metrics"; the job runner adds no other key and drops none. *)
Theorem run_backtest_job_key_set
    (message : gmap string value) (log : list log_record) :
  ∃ r, result_of (run_backtest_job message) log = Returned r
       ∧ dom r = dom message
                 ∪ {["job_id"; "symbol"; "strategy"; "status"; "metrics"]}.
Proof.
  eexists. split; [apply run_backtest_job_result |].
  by rewrite dict_unpack_dom, job_result_dom.
Qed.

(** X2: the job runner is idempotent on its results: given a mapping it
    returned, it returns that same mapping. *)
Theorem run_backtest_job_idempotent
    (message : gmap string value) (log log' : list log_record) :
  ∃ r, result_of (run_backtest_job message) log = Returned r
       ∧ result_of (run_backtest_job r) log' = Returned r.
Proof.
  eexists. split; [apply run_backtest_job_result |].
  rewrite run_backtest_job_result. f_equal.
  rewrite job_result_fixed. unfold dict_unpack.
  apply map_subseteq_union, map_union_subseteq_l.
Qed.

(** X3: the "status" and "metrics" a message comes with have no influence:
    two messages that agree on every other key get the same result. *)
Theorem run_backtest_job_ignores_status_metrics
    (message1 message2 : gmap string value) (log1 log2 : list log_record) :
  (∀ key, key ≠ "status" → key ≠ "metrics" →
          message1 !! key = message2 !! key) →
  result_of (run_backtest_job message1) log1
  = result_of (run_backtest_job message2) log2.
Proof.
  intros Hagree. rewrite !run_backtest_job_result. f_equal.
  rewrite (job_result_agree message1 message2) by (apply Hagree; discriminate).
  apply map_eq. intros key.
  destruct (job_result message2 !! key) as [v |] eqn:Hv.
  - by rewrite !(dict_unpack_lookup_r _ _ _ v).
  - rewrite !dict_unpack_lookup_l by done.
    apply Hagree; intros ->.
    + by rewrite job_result_status in Hv.
    + by rewrite job_result_metrics in Hv.
Qed.

(** X4: on a message that has "job_id", "strategy" and "symbol", the job
    runner returns the message with "status" set to "completed" and
    "metrics" set to the placeholder metrics, and nothing else changed. *)
Theorem run_backtest_job_complete_message
    (message : gmap string value) (log : list log_record) :
  is_Some (message !! "job_id") →
  is_Some (message !! "strategy") →
  is_Some (message !! "symbol") →
  result_of (run_backtest_job message) log
  = Returned (<["metrics" := VDict metrics]>
                (<["status" := VStr "completed"]> message)).
Proof.
  intros Hj Hst Hsy. rewrite run_backtest_job_result, merged_as_inserts.
  by rewrite !insert_dict_get.
Qed.

(** X5: the dictionary the job runner logs in its last record is the
    placeholder result alone, not the mapping it returns: it has the five
    result keys only, it is contained in the returned mapping, and it is
    the returned mapping just when the message has no key beyond those
    five. *)
Theorem run_backtest_job_logged_result
    (message : gmap string value) (log : list log_record) :
  ∃ r d,
    result_of (run_backtest_job message) log = Returned r
    ∧ last (log_of (run_backtest_job message) log)
      = Some (LogRecord DEBUG "✅ Backtest job %s result: %s"
                [dict_get message "job_id" (VStr "unknown"); VDict d])
    ∧ dom d = {["job_id"; "symbol"; "strategy"; "status"; "metrics"]}
    ∧ d ⊆ r
    ∧ (d = r ↔ dom message ⊆ dom d).
Proof.
  exists (dict_unpack message (job_result message)), (job_result message).
  split_and!.
  - apply run_backtest_job_result.
  - rewrite run_backtest_job_log. apply last_Some.
    by exists (log ++ [running_record message]); rewrite <- app_assoc.
  - apply job_result_dom.
  - apply job_result_included.
  - split.
    + intros Heq. rewrite Heq, dict_unpack_dom.
      apply union_subseteq_l.
    + intros Hsub. apply subseteq_dom_eq; [apply job_result_included |].
      rewrite dict_unpack_dom. by apply union_least.
Qed.

(** X8: the job runner hands the logger two records, an INFO record and
    then a DEBUG record, both with the job id of the returned mapping as
    first argument; it never logs at ERROR level. *)
Theorem run_backtest_job_logs_job_id
    (message : gmap string value) (log : list log_record) :
  ∃ r job_id started finished,
    result_of (run_backtest_job message) log = Returned r
    ∧ r !! "job_id" = Some job_id
    ∧ log_of (run_backtest_job message) log = log ++ [started; finished]
    ∧ levelname started = INFO ∧ head (args started) = Some job_id
    ∧ levelname finished = DEBUG ∧ head (args finished) = Some job_id.
Proof.
  exists (dict_unpack message (job_result message)),
    (dict_get message "job_id" (VStr "unknown")),
    (running_record message), (finished_record message).
  split_and!.
  - apply run_backtest_job_result.
  - apply dict_unpack_lookup_r, job_result_job_id.
  - apply run_backtest_job_log.
  - reflexivity.
  - reflexivity.
  - reflexivity.
  - reflexivity.
Qed.

(** ** The two functions in sequence *)

Section pipeline.

Variable validate_message_schema : gmap string value → bool.

(** X6: when [run_backtest_job] is applied to what
    [validate_input_message] returns, a rejected message never reaches the
    job runner: the [ValueError] comes out, and the logger gets the two
    records of the validator and none of the job runner. *)
Theorem rejected_message_is_not_run
    (message : gmap string value) (log : list log_record) :
  validate_message_schema message = false →
  (validate_input_message validate_message_schema message
     ≫= run_backtest_job) log
  = (Raised (ValueError "Invalid message format"),
     log ++ [validating_record; invalid_record message]).
Proof.
  intros Hko. unfold mbind at 1, py_mbind, py_bind.
  by rewrite validate_input_message_invalid.
Qed.

(** X7: on an accepted message the sequence behaves as the job runner on
    the message itself, started after the validator's one debug record. *)
Theorem accepted_message_is_run
    (message : gmap string value) (log : list log_record) :
  validate_message_schema message = true →
  (validate_input_message validate_message_schema message
     ≫= run_backtest_job) log
  = run_backtest_job message (log ++ [validating_record]).
Proof.
  intros Hok. unfold mbind at 1, py_mbind, py_bind.
  by rewrite validate_input_message_valid.
Qed.

(** X9: in the sequence of the two functions, a record of level ERROR is
    logged exactly when the message is rejected. *)
Theorem error_record_iff_rejected
    (message : gmap string value) (log : list log_record) :
  ∃ records,
    log_of (validate_input_message validate_message_schema message
              ≫= run_backtest_job) log
    = log ++ records
    ∧ (Exists (λ rec, levelname rec = ERROR) records
       ↔ validate_message_schema message = false).
Proof.
  unfold log_of, mbind at 1, py_mbind, py_bind.
  destruct (validate_message_schema message) eqn:Hschema.
  - exists [validating_record; running_record message; finished_record message].
    split.
    + rewrite validate_input_message_valid, run_backtest_job_run by done.
      simpl. by rewrite <- app_assoc.
    + split; [| discriminate].
      intros Hex. repeat (apply Exists_cons in Hex as [Hex | Hex];
                          [discriminate |]).
      by apply Exists_nil in Hex.
  - exists [validating_record; invalid_record message]. split.
    + by rewrite validate_input_message_invalid.
    + split; [done |]. intros _.
      apply Exists_cons_tl, Exists_cons_hd. reflexivity.
Qed.

End pipeline.

Lemma run_backtest_job_ignores_status_metrics_witness :
  result_of (run_backtest_job
               (dict_display [("job_id", VStr "j2"); ("status", VStr "pending")]))
            []
  = result_of (run_backtest_job
                 (dict_display [("job_id", VStr "j2"); ("metrics", VNone)]))
              [].
Proof.
  apply run_backtest_job_ignores_status_metrics.
  intros key Hstatus Hmetrics. unfold dict_display. simpl.
  rewrite (lookup_insert_ne _ "status" key) by (intros Heq; by subst).
  rewrite (lookup_insert_ne _ "metrics" key) by (intros Heq; by subst).
  reflexivity.
Defined.

Lemma run_backtest_job_complete_message_witness :
  is_Some (sma_job !! "job_id")
  ∧ is_Some (sma_job !! "strategy")
  ∧ is_Some (sma_job !! "symbol")
  ∧ result_of (run_backtest_job sma_job) []
    = Returned (<["metrics" := VDict metrics]>
                  (<["status" := VStr "completed"]> sma_job)).
Proof.
  assert (is_Some (sma_job !! "job_id")) as Hj by (by eexists).
  assert (is_Some (sma_job !! "strategy")) as Hst by (by eexists).
  assert (is_Some (sma_job !! "symbol")) as Hsy by (by eexists).
  split; [exact Hj |]. split; [exact Hst |]. split; [exact Hsy |].
  exact (run_backtest_job_complete_message sma_job [] Hj Hst Hsy).
Defined.

Lemma rejected_message_is_not_run_witness :
  has_required_fields ∅ = false
  ∧ (validate_input_message has_required_fields ∅ ≫= run_backtest_job) []
    = (Raised (ValueError "Invalid message format"),
       [validating_record; invalid_record ∅]).
Proof.
  split; [reflexivity |].
  apply (rejected_message_is_not_run has_required_fields ∅ []).
  reflexivity.
Defined.

Lemma accepted_message_is_run_witness :
  has_required_fields sma_job = true
  ∧ (validate_input_message has_required_fields sma_job ≫= run_backtest_job) []
    = run_backtest_job sma_job [validating_record].
Proof.
  split; [reflexivity |].
  apply (accepted_message_is_run has_required_fields sma_job []).
  reflexivity.
Defined.

End Processor.
